(** * dot_tree: the NEKOTREE reader of [tree-py/src/__init__.py]

    A shallow embedding of the Python module: the [SubItem] dataclass, the
    [Tree] class with its two static methods [open] and [create], and the
    parts of the run time they touch (the file system, the bit streams of
    the [bitstring] package, [bytes.decode]).

    Python code runs in a state-and-exception monad over a [world] that holds
    the files and the stream objects that have been made. *)

From Stdlib Require Import ZArith NArith List Bool Lia.
From Stdlib Require Import Strings.String Strings.Ascii Strings.Byte.
From stdpp Require Import gmap strings.
Import ListNotations.

Local Open Scope nat_scope.

(** ** Bytes and bits *)

(** Python's [bytes]: a sequence of octets. *)
Abbreviation bytes := (list byte).

(** [a == b] on [bytes]: same length, same octet at every index. *)
Fixpoint bytes_eqb (a b : bytes) : bool :=
  match a, b with
  | [], [] => true
  | x :: a', y :: b' => Byte.eqb x y && bytes_eqb a' b'
  | _, _ => false
  end.

(** [a != b] on [bytes]. *)
Definition bytes_ne (a b : bytes) : bool := negb (bytes_eqb a b).

(** The eight bits of an octet, most significant first (the order in which
    [bitstring] numbers the bits of a file). *)
Definition bits_of_byte (b : byte) : list bool :=
  let '(b0, (b1, (b2, (b3, (b4, (b5, (b6, b7))))))) := Byte.to_bits b in
  [b7; b6; b5; b4; b3; b2; b1; b0].

Definition byte_of_bits (b7 b6 b5 b4 b3 b2 b1 b0 : bool) : byte :=
  Byte.of_bits (b0, (b1, (b2, (b3, (b4, (b5, (b6, b7))))))).

Fixpoint bits_of_bytes (bs : bytes) : list bool :=
  match bs with
  | [] => []
  | b :: bs' => bits_of_byte b ++ bits_of_bytes bs'
  end.

(** Octets of a bit string; [None] when its length is not a multiple of 8. *)
Fixpoint bytes_of_bits (bits : list bool) : option bytes :=
  match bits with
  | [] => Some []
  | b7 :: b6 :: b5 :: b4 :: b3 :: b2 :: b1 :: b0 :: rest =>
      match bytes_of_bits rest with
      | Some bs => Some (byte_of_bits b7 b6 b5 b4 b3 b2 b1 b0 :: bs)
      | None => None
      end
  | _ => None
  end.

(** The literal [b"NEKOTREE"]. *)
Definition NEKOTREE : bytes := list_byte_of_string "NEKOTREE".

(** ** Text *)

(** Python's [str]: a sequence of Unicode code points. *)
Abbreviation str := (list N).

(** A [str] literal of ASCII characters. *)
Definition str_lit (s : string) : str := map Byte.to_N (list_byte_of_string s).

(** A continuation octet, [0x80..0xBF]. *)
Definition is_cont (n : N) : bool := ((0x80 <=? n) && (n <=? 0xBF))%N.

Definition in_range (lo hi n : N) : bool := ((lo <=? n) && (n <=? hi))%N.

(** [bytes.decode('utf-8')] with the default error handler [strict]: the
    code points of a well-formed UTF-8 sequence, [None] where CPython raises
    [UnicodeDecodeError] (a stray continuation octet, a truncated or overlong
    sequence, a surrogate, a code point above U+10FFFF). *)
Fixpoint utf8_decode (bs : bytes) : option str :=
  match bs with
  | [] => Some []
  | b0 :: t0 =>
    let n0 := Byte.to_N b0 in
    if (n0 <? 0x80)%N then option_map (cons n0) (utf8_decode t0)
    else
      match t0 with
      | [] => None
      | b1 :: t1 =>
        let n1 := Byte.to_N b1 in
        if in_range 0xC2 0xDF n0 then
          if is_cont n1
          then option_map (cons ((n0 - 0xC0) * 64 + (n1 - 0x80))%N) (utf8_decode t1)
          else None
        else
          match t1 with
          | [] => None
          | b2 :: t2 =>
            let n2 := Byte.to_N b2 in
            if in_range 0xE0 0xEF n0 then
              if in_range (if (n0 =? 0xE0)%N then 0xA0 else 0x80)
                          (if (n0 =? 0xED)%N then 0x9F else 0xBF) n1
                 && is_cont n2
              then option_map
                     (cons ((n0 - 0xE0) * 4096 + (n1 - 0x80) * 64 + (n2 - 0x80))%N)
                     (utf8_decode t2)
              else None
            else
              match t2 with
              | [] => None
              | b3 :: t3 =>
                let n3 := Byte.to_N b3 in
                if in_range 0xF0 0xF4 n0 then
                  if in_range (if (n0 =? 0xF0)%N then 0x90 else 0x80)
                              (if (n0 =? 0xF4)%N then 0x8F else 0xBF) n1
                     && is_cont n2 && is_cont n3
                  then option_map
                         (cons ((n0 - 0xF0) * 262144 + (n1 - 0x80) * 4096
                                + (n2 - 0x80) * 64 + (n3 - 0x80))%N)
                         (utf8_decode t3)
                  else None
                else None
              end
          end
      end
  end.

(** ** Exceptions and values *)

Inductive exn : Type :=
  (** Modelled from the spec: the class [InvalidFileIdentifier] of the
      module [exceptions], which is not part of the sources at hand; an
      exception that carries the message it is built with. *)
  | InvalidFileIdentifier (msg : str)
  (** [bitstring.ReadError]: [requested] bits were asked for and only
      [available] were left. *)
  | ReadError (requested available : nat)
  (** [bitstring.InterpretError]: [.bytes] of a bit string whose length is
      not a multiple of 8. *)
  | InterpretError
  (** [UnicodeDecodeError], with the object that could not be decoded. *)
  | UnicodeDecodeError (object : bytes)
  (** The file to open does not exist. *)
  | FileNotFoundError (filename : string)
  (** [ValueError], with its message. *)
  | ValueError (msg : string)
  (** [TypeError], with its message. *)
  | TypeError (msg : string)
  (** [AttributeError]: the object has no attribute of that name. *)
  | AttributeError (name : string).

Inductive result (A : Type) : Type :=
  | Ret (a : A)
  | Raise (e : exn).
Arguments Ret {A} a.
Arguments Raise {A} e.

(** An object of class [bitstring.ConstBitStream]: immutable bits and a read
    position, counted in bits. *)
Record ConstBitStream : Type := mkStream {
  stream_bits : list bool;
  stream_pos : nat
}.

(** What Python code sees: the files, by path, and the stream objects that
    have been made, by object identity. The interpreter reclaims an object
    nobody refers to any more; that is its business and is not modelled, so
    a stream stays in [streams] once it is made. *)
Record world : Type := mkWorld {
  files : gmap string bytes;
  streams : gmap positive ConstBitStream
}.

(** ** The monad *)

Definition M (A : Type) : Type := world -> result A * world.

Definition ret {A} (a : A) : M A := fun w => (Ret a, w).

Definition raise {A} (e : exn) : M A := fun w => (Raise e, w).

Definition bind {A B} (m : M A) (k : A -> M B) : M B :=
  fun w =>
    match m w with
    | (Ret a, w') => k a w'
    | (Raise e, w') => (Raise e, w')
    end.

#[export] Instance M_ret : MRet M := @ret.
#[export] Instance M_bind : MBind M := fun A B k m => bind m k.

(** [x if x is not None else raise e]. *)
Definition lift_option {A} (o : option A) (e : exn) : M A :=
  match o with
  | Some a => ret a
  | None => raise e
  end.

(** ** The [with] statement *)

(** The two methods of the context-manager protocol: [__enter__], whose
    result the [as] clause binds, and [__exit__], which is given the
    exception of the block, if any, and answers whether to swallow it. *)
Record context_manager (H X : Type) : Type := mkContextManager {
  enter : H -> M X;
  exit : H -> option exn -> M bool
}.
Arguments mkContextManager {H X} enter exit.
Arguments enter {H X} c h.
Arguments exit {H X} c h e.

(** What the [with] statement needs to know of the class of its manager:
    the name of the class and its protocol methods, [None] when the class
    defines neither. *)
Record manager_class (H X : Type) : Type := mkManagerClass {
  class_name : string;
  protocol : option (context_manager H X)
}.
Arguments mkManagerClass {H X} class_name protocol.
Arguments class_name {H X} m.
Arguments protocol {H X} m.

(** The message of the [TypeError] of a [with] statement over an object
    without the protocol (CPython 3.11 and later; earlier versions raise
    [AttributeError] at the same place). *)
Definition not_a_context_manager (name : string) : string :=
  ("'" ++ name ++ "' object does not support the context manager protocol")%string.

(** The statement [with mgr as x: body]. The manager expression is
    evaluated first; then the protocol methods are looked up on its class,
    and the statement raises [TypeError] when they are missing. Otherwise
    [__enter__] runs, its result is bound, [body] runs, and [__exit__] runs
    however [body] ended; an exception of [body] goes on to the caller
    unless [__exit__] swallows it. *)
Definition with_ {H X} (mgr : M H) (cls : manager_class H X)
    (body : X -> M unit) : M unit :=
  fun w =>
    match mgr w with
    | (Raise e, w1) => (Raise e, w1)
    | (Ret h, w1) =>
        match protocol cls with
        | None => (Raise (TypeError (not_a_context_manager (class_name cls))), w1)
        | Some cm =>
            match enter cm h w1 with
            | (Raise e, w2) => (Raise e, w2)
            | (Ret x, w2) =>
                match body x w2 with
                | (Ret _, w3) =>
                    match exit cm h None w3 with
                    | (Ret _, w4) => (Ret tt, w4)
                    | (Raise e', w4) => (Raise e', w4)
                    end
                | (Raise e, w3) =>
                    match exit cm h (Some e) w3 with
                    | (Ret true, w4) => (Ret tt, w4)
                    | (Ret false, w4) => (Raise e, w4)
                    | (Raise e', w4) => (Raise e', w4)
                    end
                end
            end
        end
    end.

(** ** The [bitstring] package, as far as the module uses it

    The package is imported, not part of the module. A stream made from a
    file name maps the file and holds its bits, most significant bit of each
    octet first; [read] with an integer returns that many bits and advances,
    or raises [ReadError]. The class [ConstBitStream] defines neither
    [__enter__] nor [__exit__]. *)

Module bitstring.

(** [ConstBitStream(filename=...)]: the file is opened and mapped; a file
    that does not exist cannot be opened and an empty file cannot be
    mapped. Otherwise a new stream over the bits of the file, positioned at
    bit 0. *)
Definition new (filename : string) : M positive :=
  fun w =>
    match files w !! filename with
    | None => (Raise (FileNotFoundError filename), w)
    | Some [] => (Raise (ValueError "cannot mmap an empty file"), w)
    | Some data =>
        let h := fresh (dom (streams w)) in
        (Ret h,
         mkWorld (files w)
                 (<[h := mkStream (bits_of_bytes data) 0]> (streams w)))
    end.

(** The class of the stream, as the [with] statement sees it: no
    context-manager protocol. *)
Definition class_ : manager_class positive positive :=
  mkManagerClass "ConstBitStream" None.

(** [stream.read(n)] for an integer [n]: the next [n] bits, and the
    position moves past them; [ReadError] when fewer are left. (A handle
    that names no stream does not arise: [new] is the only source of
    handles and nothing removes a stream.) *)
Definition read (h : positive) (n : nat) : M (list bool) :=
  fun w =>
    match streams w !! h with
    | None => (Raise (ValueError "no such stream"), w)
    | Some s =>
        let available := List.length (stream_bits s) - stream_pos s in
        if available <? n then (Raise (ReadError n available), w)
        else
          (Ret (firstn n (skipn (stream_pos s) (stream_bits s))),
           mkWorld (files w)
                   (<[h := mkStream (stream_bits s) (stream_pos s + n)]>
                      (streams w)))
    end.

(** The [.bytes] property of a bit string. *)
Definition bytes_ (bits : list bool) : M bytes :=
  lift_option (bytes_of_bits bits) InterpretError.

End bitstring.

(** [b.decode('utf-8')]. *)
Definition decode (b : bytes) : M str :=
  lift_option (utf8_decode b) (UnicodeDecodeError b).

(** ** The [SubItem] dataclass *)

Module SubItem.

(** One field, [length : int]. *)
Record t : Type := SubItem { length : Z }.

(** [SubItem(length=n)]: the [__init__] that [@dataclass] generates
    stores its argument in the field; no [__post_init__] is defined. *)
Definition init (length : Z) : M t := ret (SubItem length).

End SubItem.

(** ** The [Tree] class *)

Module Tree.

(** An instance of [Tree]. The class body only annotates [subitems]; an
    instance has the attribute once it is assigned. *)
Record t : Type := Tree { subitems : option (list SubItem.t) }.

(** The values a method of the class can hand to its caller. *)
Inductive value : Type :=
  | None_
  | Tree_ (tree : t).

(** [Tree()]: the class defines no [__init__], so the call takes no
    argument and assigns no attribute. *)
Definition init : M t := ret (Tree None).


Definition open (file_path : string) : M value :=
  with_ (bitstring.new file_path) bitstring.class_ (fun stream =>
    identifier ← bitstring.read stream (8 * 8);
    b ← bitstring.bytes_ identifier;
    if bytes_ne b NEKOTREE then
      b' ← bitstring.bytes_ identifier;
      text ← decode b';
      raise (InvalidFileIdentifier (str_lit "Invalid file identifier: " ++ text))
    else ret tt);;
  ret None_.

Definition create (file_path : string) (subitems : list SubItem.t) : M value :=
  ret None_.

End Tree.

(** A world with one file and no stream. *)
Definition single_file (path : string) (data : bytes) : world :=
  mkWorld {[ path := data ]} ∅.

(** The world after [ConstBitStream(filename=...)] has made a stream over
    [data]. *)
Definition with_stream (w : world) (data : bytes) : world :=
  mkWorld (files w)
          (<[fresh (dom (streams w)) := mkStream (bits_of_bytes data) 0]>
             (streams w)).

(** The exception of [Tree.open] on a file that exists and is not empty. *)
Definition no_protocol : exn :=
  TypeError "'ConstBitStream' object does not support the context manager protocol".

(** Between [w] and [w'] some stream was made or moved, and stands past
    bit [n]: a bit at offset [n] or beyond has been read. *)
Definition read_beyond (n : nat) (w w' : world) : Prop :=
  exists h s,
    streams w' !! h = Some s /\ streams w !! h <> Some s /\ n < stream_pos s.

(** * Properties *)

(** ** The constructor of the stream *)

Lemma new_missing (w : world) (filename : string) :
  files w !! filename = None ->
  bitstring.new filename w = (Raise (FileNotFoundError filename), w).
Proof. intros Hf. unfold bitstring.new. now rewrite Hf. Qed.

Lemma new_empty (w : world) (filename : string) :
  files w !! filename = Some [] ->
  bitstring.new filename w = (Raise (ValueError "cannot mmap an empty file"), w).
Proof. intros Hf. unfold bitstring.new. now rewrite Hf. Qed.

Lemma new_nonempty (w : world) (filename : string) (data : bytes) :
  files w !! filename = Some data ->
  data <> [] ->
  bitstring.new filename w = (Ret (fresh (dom (streams w))), with_stream w data).
Proof.
  intros Hf Hne. unfold bitstring.new. rewrite Hf.
  destruct data; [contradiction|reflexivity].
Qed.


(** ** The [with] statement over a stream *)

(** Over a file that exists and is not empty the statement raises
    [TypeError] once the stream is made, whatever its block is: the block
    does not run. *)
Lemma with_stream_no_protocol
    (w : world) (filename : string) (data : bytes) (body : positive -> M unit) :
  files w !! filename = Some data ->
  data <> [] ->
  with_ (bitstring.new filename) bitstring.class_ body w
  = (Raise no_protocol, with_stream w data).
Proof.
  intros Hf Hne. unfold with_. now rewrite (new_nonempty _ _ _ Hf Hne).
Qed.

(** ** What [Tree.open] computes *)

Lemma open_missing (w : world) (file_path : string) :
  files w !! file_path = None ->
  Tree.open file_path w = (Raise (FileNotFoundError file_path), w).
Proof.
  intros Hf. unfold Tree.open, with_, mbind, M_bind, bind.
  now rewrite (new_missing _ _ Hf).
Qed.

Lemma open_empty (w : world) (file_path : string) :
  files w !! file_path = Some [] ->
  Tree.open file_path w = (Raise (ValueError "cannot mmap an empty file"), w).
Proof.
  intros Hf. unfold Tree.open, with_, mbind, M_bind, bind.
  now rewrite (new_empty _ _ Hf).
Qed.

Lemma open_nonempty (w : world) (file_path : string) (data : bytes) :
  files w !! file_path = Some data ->
  data <> [] ->
  Tree.open file_path w = (Raise no_protocol, with_stream w data).
Proof.
  intros Hf Hne. unfold Tree.open, mbind, M_bind, bind.
  now rewrite (with_stream_no_protocol _ _ _ _ Hf Hne).
Qed.

(** The three ways [Tree.open] ends, by what the path names. *)
Lemma open_cases (w : world) (file_path : string) :
  (files w !! file_path = None
   /\ Tree.open file_path w = (Raise (FileNotFoundError file_path), w))
  \/ (files w !! file_path = Some []
      /\ Tree.open file_path w
         = (Raise (ValueError "cannot mmap an empty file"), w))
  \/ (exists data,
        files w !! file_path = Some data /\ data <> []
        /\ Tree.open file_path w = (Raise no_protocol, with_stream w data)).
Proof.
  destruct (files w !! file_path) as [[|b data]|] eqn:Hf.
  - right; left. split; [reflexivity|]. now apply open_empty.
  - right; right. exists (b :: data).
    split; [reflexivity|]. split; [discriminate|].
    now apply open_nonempty.
  - left. split; [reflexivity|]. now apply open_missing.
Qed.

(** The streams of [with_stream w data]: those of [w] and a new one at
    bit 0. *)
Lemma with_stream_lookup (w : world) (data : bytes) (h : positive) (s : ConstBitStream) :
  streams (with_stream w data) !! h = Some s ->
  streams w !! h = Some s \/ stream_pos s = 0.
Proof.
  unfold with_stream; cbn [streams]. intros H.
  destruct (decide (fresh (dom (streams w)) = h)) as [<-|Hne].
  - rewrite lookup_insert_eq in H. injection H as <-. now right.
  - rewrite lookup_insert_ne in H by exact Hne. now left.
Qed.

(** [Tree.open] reads nothing. *)
Lemma open_reads_nothing (w : world) (file_path : string) (n : nat) :
  ~ read_beyond n w (snd (Tree.open file_path w)).
Proof.
  intros (h & s & Hs' & Hs & Hpos).
  destruct (open_cases w file_path)
    as [[_ E]|[[_ E]|(data & _ & _ & E)]]; rewrite E in Hs'; cbn [snd] in Hs'.
  - contradiction.
  - contradiction.
  - apply with_stream_lookup in Hs' as [?|?]; [contradiction|lia].
Qed.

(** * The claims *)

(** C1, at a failing input: the file holds the eight octets [XXXXXXXX],
    which are not [NEKOTREE]. The call ends in the [TypeError] of the
    [with] statement; nothing is read or compared and no
    [InvalidFileIdentifier] is raised. *)
Theorem open_wrong_identifier_raises_TypeError :
  let data := list_byte_of_string "XXXXXXXX" in
  let w := single_file "x.tree" data in
  firstn 8 data <> NEKOTREE
  /\ fst (Tree.open "x.tree" w) = Raise no_protocol
  /\ (forall msg, fst (Tree.open "x.tree" w) <> Raise (InvalidFileIdentifier msg))
  /\ ~ read_beyond 0 w (snd (Tree.open "x.tree" w)).
Proof.
  intros data w.
  assert (Ho : Tree.open "x.tree" w = (Raise no_protocol, with_stream w data)).
  { apply open_nonempty; [apply lookup_singleton_eq | discriminate]. }
  split; [discriminate|]. split; [now rewrite Ho|].
  split; [intros msg; rewrite Ho; discriminate|].
  apply open_reads_nothing.
Qed.

(** C2: on a file that begins with the eight octets [NEKOTREE], whatever
    follows them, [Tree.open] does not raise [InvalidFileIdentifier]. *)
Theorem open_valid_identifier_not_refused
    (w : world) (file_path : string) (rest : bytes) (msg : str) :
  files w !! file_path = Some (NEKOTREE ++ rest) ->
  fst (Tree.open file_path w) <> Raise (InvalidFileIdentifier msg).
Proof.
  intros Hf. rewrite (open_nonempty _ _ _ Hf); discriminate.
Qed.

Lemma open_valid_identifier_not_refused_witness :
  files (single_file "a.tree" (NEKOTREE ++ [x00; xff])) !! "a.tree"
    = Some (NEKOTREE ++ [x00; xff])
  /\ fst (Tree.open "a.tree" (single_file "a.tree" (NEKOTREE ++ [x00; xff])))
     <> Raise (InvalidFileIdentifier []).
Proof.
  split; [apply lookup_singleton_eq|].
  apply (open_valid_identifier_not_refused _ _ [x00; xff]).
  apply lookup_singleton_eq.
Defined.

(** C3, at a failing input: the file holds exactly [NEKOTREE]. The call
    ends in the [TypeError] of the [with] statement and hands no [Tree] to
    its caller. *)
Theorem open_valid_file_raises_TypeError :
  let w := single_file "a.tree" NEKOTREE in
  fst (Tree.open "a.tree" w) = Raise no_protocol
  /\ ~ exists tree, fst (Tree.open "a.tree" w) = Ret (Tree.Tree_ tree).
Proof.
  intros w.
  assert (Ho : Tree.open "a.tree" w = (Raise no_protocol, with_stream w NEKOTREE)).
  { apply open_nonempty; [apply lookup_singleton_eq | discriminate]. }
  split; [now rewrite Ho|]. intros [tree H]. rewrite Ho in H. discriminate H.
Qed.


(** C5, at a failing input: the file holds [NEKOTRFF], the scenario of the
    specification. The call ends in the [TypeError] of the [with]
    statement; no [InvalidFileIdentifier], with this or another message, is
    raised. *)
Theorem open_NEKOTRFF_raises_TypeError :
  let w := single_file "b.tree" (list_byte_of_string "NEKOTRFF") in
  fst (Tree.open "b.tree" w) = Raise no_protocol
  /\ forall msg, fst (Tree.open "b.tree" w) <> Raise (InvalidFileIdentifier msg).
Proof.
  intros w.
  assert (Ho : Tree.open "b.tree" w
               = (Raise no_protocol,
                  with_stream w (list_byte_of_string "NEKOTRFF"))).
  { apply open_nonempty; [apply lookup_singleton_eq | discriminate]. }
  split; [now rewrite Ho|]. intros msg. rewrite Ho. discriminate.
Qed.

(** C6: for every path and every list of items, [Tree.create] returns
    [None] and leaves the world, its files among the rest, as it found it. *)
Theorem create_no_effect
    (file_path : string) (subitems : list SubItem.t) (w : world) :
  Tree.create file_path subitems w = (Ret Tree.None_, w).
Proof. reflexivity. Qed.

(** C7, at a failing input: the file holds the four octets [NEKO]. The
    call ends in the [TypeError] of the [with] statement, which is neither
    [InvalidFileIdentifier] nor the [ReadError] of a short read: [read] is
    not called. *)
Theorem open_short_file_raises_TypeError :
  let w := single_file "c.tree" (list_byte_of_string "NEKO") in
  fst (Tree.open "c.tree" w) = Raise no_protocol
  /\ (forall msg, fst (Tree.open "c.tree" w) <> Raise (InvalidFileIdentifier msg))
  /\ (forall n k, fst (Tree.open "c.tree" w) <> Raise (ReadError n k)).
Proof.
  intros w.
  assert (Ho : Tree.open "c.tree" w
               = (Raise no_protocol, with_stream w (list_byte_of_string "NEKO"))).
  { apply open_nonempty; [apply lookup_singleton_eq | discriminate]. }
  split; [now rewrite Ho|].
  split; intros; rewrite Ho; discriminate.
Qed.

(** C8: for every integer [n], zero and large ones alike, [SubItem(length=n)]
    returns a record whose [length] is [n]; nothing is raised and nothing
    else changes. *)
Theorem SubItem_init_length (n : Z) (w : world) :
  exists item,
    SubItem.init n w = (Ret item, w) /\ SubItem.length item = n.
Proof. exists (SubItem.SubItem n). split; reflexivity. Qed.

(** C9: two files with the same first 8 octets make [Tree.open] end the
    same way, with the same exception and message; and after neither call
    does a stream stand past bit 64: no octet at offset 8 or beyond has
    been read. *)
Theorem open_depends_on_first_8_bytes
    (w1 w2 : world) (path1 path2 : string) (data1 data2 : bytes) :
  files w1 !! path1 = Some data1 ->
  files w2 !! path2 = Some data2 ->
  firstn 8 data1 = firstn 8 data2 ->
  fst (Tree.open path1 w1) = fst (Tree.open path2 w2)
  /\ ~ read_beyond 64 w1 (snd (Tree.open path1 w1))
  /\ ~ read_beyond 64 w2 (snd (Tree.open path2 w2)).
Proof.
  intros Hf1 Hf2 Heq.
  split; [|split; apply open_reads_nothing].
  destruct data1 as [|a1 data1], data2 as [|a2 data2]; try discriminate Heq.
  - now rewrite (open_empty _ _ Hf1), (open_empty _ _ Hf2).
  - rewrite (open_nonempty _ _ _ Hf1), (open_nonempty _ _ _ Hf2);
      [reflexivity | discriminate | discriminate].
Qed.

Lemma open_depends_on_first_8_bytes_witness :
  let data1 := list_byte_of_string "NEKOTRFFabc" in
  let data2 := list_byte_of_string "NEKOTRFF" ++ [xff; x00] in
  let w1 := single_file "p" data1 in
  let w2 := single_file "q" data2 in
  fst (Tree.open "p" w1) = fst (Tree.open "q" w2)
  /\ ~ read_beyond 64 w1 (snd (Tree.open "p" w1))
  /\ ~ read_beyond 64 w2 (snd (Tree.open "q" w2)).
Proof.
  intros data1 data2 w1 w2.
  apply (open_depends_on_first_8_bytes w1 w2 "p" "q" data1 data2);
    [apply lookup_singleton_eq | apply lookup_singleton_eq | reflexivity].
Defined.



(** * Further properties of the module *)

(** X1: [Tree.open] writes nothing: however the call ends, the files after
    it are the files before it. *)
Theorem open_preserves_files (w : world) (file_path : string) :
  files (snd (Tree.open file_path w)) = files w.
Proof.
  destruct (open_cases w file_path)
    as [[_ ->]|[[_ ->]|(data & _ & _ & ->)]]; reflexivity.
Qed.

(** X2: [Tree.open] never returns: on every path and in every world the
    call ends in an exception. *)
Theorem open_never_returns (w : world) (file_path : string) (v : Tree.value) :
  fst (Tree.open file_path w) <> Ret v.
Proof.
  destruct (open_cases w file_path)
    as [[_ ->]|[[_ ->]|(data & _ & _ & ->)]]; discriminate.
Qed.

(** X3: on every file that exists and is not empty, whatever it holds,
    [Tree.open] ends in the [TypeError] of the [with] statement: the
    stream is no context manager. *)
Theorem open_existing_file_TypeError
    (w : world) (file_path : string) (data : bytes) :
  files w !! file_path = Some data ->
  data <> [] ->
  fst (Tree.open file_path w)
  = Raise (TypeError
             "'ConstBitStream' object does not support the context manager protocol").
Proof.
  intros Hf Hne. now rewrite (open_nonempty _ _ _ Hf Hne).
Qed.

Lemma open_existing_file_TypeError_witness :
  let data := NEKOTREE ++ [x00; x01; x02] in
  fst (Tree.open "a.tree" (single_file "a.tree" data))
  = Raise (TypeError
             "'ConstBitStream' object does not support the context manager protocol").
Proof.
  intros data.
  apply (open_existing_file_TypeError _ "a.tree" data);
    [apply lookup_singleton_eq | discriminate].
Defined.



(** X5: on an empty file [Tree.open] ends in the [ValueError] of the
    constructor of the stream, which cannot map an empty file; the world is
    as before. *)
Theorem open_empty_file (w : world) (file_path : string) :
  files w !! file_path = Some [] ->
  Tree.open file_path w = (Raise (ValueError "cannot mmap an empty file"), w).
Proof. apply open_empty. Qed.

Lemma open_empty_file_witness :
  let w := single_file "z.tree" [] in
  Tree.open "z.tree" w = (Raise (ValueError "cannot mmap an empty file"), w).
Proof.
  intros w. apply (open_empty_file w "z.tree"). apply lookup_singleton_eq.
Defined.

(** X8: [Tree.create] makes no file, so opening the path it was given
    still fails when no file was there: [create] followed by [open] ends in
    [FileNotFoundError]. *)
Theorem create_then_open_missing
    (w : world) (file_path : string) (subitems : list SubItem.t) :
  files w !! file_path = None ->
  (Tree.create file_path subitems ;; Tree.open file_path) w
  = (Raise (FileNotFoundError file_path), w).
Proof.
  intros Hf.
  change (Tree.open file_path w = (Raise (FileNotFoundError file_path), w)).
  now apply open_missing.
Qed.

Lemma create_then_open_missing_witness :
  let w := single_file "other.tree" NEKOTREE in
  (Tree.create "new.tree" [SubItem.SubItem 3; SubItem.SubItem 0] ;;
   Tree.open "new.tree") w
  = (Raise (FileNotFoundError "new.tree"), w).
Proof.
  intros w. apply (create_then_open_missing w "new.tree").
  apply lookup_singleton_ne. discriminate.
Defined.
